(** * callsites: capturing the current call stack through V8's
      [Error.prepareStackTrace] hook

    A shallow embedding of [index.js] (the optimized [callsites]), of the
    original variant quoted in the optimization report, and of the part of
    the V8 stack-trace API both run against.  JavaScript state is threaded
    explicitly: a computation is a function from the runtime state to an
    outcome (a returned value or a thrown exception) and the next state. *)

From stdpp Require Import gmap strings list fin_maps.

(** ** Data model *)

(** The function a frame is executing.  The two variants of the capture
    function are told apart from every other function of the program. *)
Inductive callee :=
  | CalleeCallsites
  | CalleeCallsitesOriginal
  | CalleeUser (name : string).

(** An active invocation: which function runs and the source location it
    has currently reached (for a caller: the location of its pending
    call). *)
Record Frame := {
  frame_callee : callee;
  frame_file : option string;
  frame_line : option nat;
  frame_column : option nat;
}.

(** The runtime-provided descriptor of one frame, with the accessors the
    benchmark reads. *)
Record CallSite := {
  getFunction : callee;
  getFileName : option string;
  getLineNumber : option nat;
  getColumnNumber : option nat;
}.

(** The descriptor V8 builds for a frame. *)
Definition site_of (f : Frame) : CallSite :=
  {| getFunction := frame_callee f;
     getFileName := frame_file f;
     getLineNumber := frame_line f;
     getColumnNumber := frame_column f |}.

Abbreviation addr := nat.

(** Function objects, compared by identity.  [PrepareStackTraceHandler] is
    the module-level constant of [index.js]; [SliceHook id result] is the
    closure the original variant allocates on each call, [id] being its
    allocation number and [result] the cell of the local variable it
    captures; [ForeignFn] stands for any function of the embedding
    program. *)
Inductive func :=
  | PrepareStackTraceHandler
  | SliceHook (id : nat) (result : addr)
  | ForeignFn (id : nat).

(** JavaScript values the program handles.  [VStackString frames] is V8's
    default textual rendering of [frames]; [VError name captured] is an
    error object together with the structured stack captured when it was
    constructed. *)
Inductive value :=
  | VUndefined
  | VFunction (f : func)
  | VArray (a : addr)
  | VStackString (frames : list CallSite)
  | VError (name : string) (captured : list CallSite).

Global Instance callee_eq_dec : EqDecision callee.
Proof. solve_decision. Defined.
Global Instance CallSite_eq_dec : EqDecision CallSite.
Proof. solve_decision. Defined.
Global Instance func_eq_dec : EqDecision func.
Proof. solve_decision. Defined.
Global Instance value_eq_dec : EqDecision value.
Proof. solve_decision. Defined.

(** ** Runtime state *)

(** What the code reads and writes: the two properties of the [Error]
    constructor that drive stack capture, the heap of array objects, the
    cells of captured local variables, and the function allocation
    counter.  [captureFailure] is the platform-level condition under which
    the stack-capture facility fails, with the exception it raises.
    [hookWrites] is a history variable: every value assigned to
    [Error.prepareStackTrace], newest first. *)
Record runtime := {
  prepareStackTrace : value;
  stackTraceLimit : nat;
  captureFailure : option value;
  arrays : gmap addr (list CallSite);
  cells : gmap addr value;
  nextFunction : nat;
  hookWrites : list value;
}.

Definition with_prepareStackTrace (v : value) (st : runtime) : runtime :=
  {| prepareStackTrace := v;
     stackTraceLimit := stackTraceLimit st;
     captureFailure := captureFailure st;
     arrays := arrays st;
     cells := cells st;
     nextFunction := nextFunction st;
     hookWrites := v :: hookWrites st |}.

Definition with_arrays (h : gmap addr (list CallSite)) (st : runtime) : runtime :=
  {| prepareStackTrace := prepareStackTrace st;
     stackTraceLimit := stackTraceLimit st;
     captureFailure := captureFailure st;
     arrays := h;
     cells := cells st;
     nextFunction := nextFunction st;
     hookWrites := hookWrites st |}.

Definition with_cells (c : gmap addr value) (st : runtime) : runtime :=
  {| prepareStackTrace := prepareStackTrace st;
     stackTraceLimit := stackTraceLimit st;
     captureFailure := captureFailure st;
     arrays := arrays st;
     cells := c;
     nextFunction := nextFunction st;
     hookWrites := hookWrites st |}.

Definition with_nextFunction (n : nat) (st : runtime) : runtime :=
  {| prepareStackTrace := prepareStackTrace st;
     stackTraceLimit := stackTraceLimit st;
     captureFailure := captureFailure st;
     arrays := arrays st;
     cells := cells st;
     nextFunction := n;
     hookWrites := hookWrites st |}.

(** ** Computations: state and exceptions *)

Inductive outcome (A : Type) :=
  | Return (a : A)
  | Throw (e : value).
Arguments Return {A} a.
Arguments Throw {A} e.

Definition JS (A : Type) : Type := runtime → outcome A * runtime.

Global Instance JS_ret : MRet JS := λ A a st, (Return a, st).

Global Instance JS_bind : MBind JS := λ A B k m st,
  match m st with
  | (Return a, st') => k a st'
  | (Throw e, st') => (Throw e, st')
  end.

Definition gets {A} (f : runtime → A) : JS A := λ st, (Return (f st), st).
Definition modify (f : runtime → runtime) : JS unit := λ st, (Return (), f st).

(** [try { body } finally { fin }]: [fin] runs on the state [body] left,
    whichever way [body] ended; the outcome of [body] stands unless [fin]
    itself throws. *)
Definition try_finally {A} (body : JS A) (fin : JS unit) : JS A := λ st,
  let '(r, st1) := body st in
  match fin st1 with
  | (Return _, st2) => (r, st2)
  | (Throw e, st2) => (Throw e, st2)
  end.

(** ** Heap operations *)

Definition alloc_array (l : list CallSite) : JS addr := λ st,
  let a := fresh (dom (arrays st)) in
  (Return a, with_arrays (<[a := l]> (arrays st)) st).

Definition alloc_cell (v : value) : JS addr := λ st,
  let c := fresh (dom (cells st)) in
  (Return c, with_cells (<[c := v]> (cells st)) st).

Definition not_an_array : value := VError "TypeError" [].

(** [a.shift()]: removes the first element of the array object in place
    and returns it; on an empty array nothing changes and the result is
    [undefined].  The result is a call-site descriptor or [undefined]. *)
Definition array_shift (v : value) : JS (option CallSite) := λ st,
  match v with
  | VArray a =>
      match arrays st !! a with
      | Some l => (Return (head l), with_arrays (<[a := tail l]> (arrays st)) st)
      | None => (Throw not_an_array, st)
      end
  | _ => (Throw not_an_array, st)
  end.

(** [a.slice(1)] for an array object [a]: a new array object holding the
    elements from index 1 on; the receiver is left as it is.  V8 passes
    the hook an array; on the other values of this model the call raises
    the [TypeError] of a receiver without a [slice] method, and a string
    receiver, which has one of its own, is outside what is modelled. *)
Definition array_slice_1 (v : value) : JS value := λ st,
  match v with
  | VArray a =>
      match arrays st !! a with
      | Some l => (b ← alloc_array (drop 1 l); mret (VArray b)) st
      | None => (Throw not_an_array, st)
      end
  | _ => (Throw not_an_array, st)
  end.

Definition read_cell (c : addr) : JS value :=
  gets (λ st, default VUndefined (cells st !! c)).

Definition write_cell (c : addr) (v : value) : JS unit :=
  modify (λ st, with_cells (<[c := v]> (cells st)) st).

(** Evaluating a function expression: a new function object, distinct
    from every one allocated before. *)
Definition new_closure (result : addr) : JS func := λ st,
  (Return (SliceHook (nextFunction st) result),
   with_nextFunction (S (nextFunction st)) st).

(** [Error.prepareStackTrace = v]. *)
Definition set_prepareStackTrace (v : value) : JS unit :=
  modify (with_prepareStackTrace v).

(** ** The hooks *)

(** [index.js], lines 4-9:
    [(_, callSites) => { callSites.shift(); return callSites; }]. *)
Definition prepareStackTraceHandler (_ callSites : value) : JS value :=
  _ ← array_shift callSites;
  mret callSites.

(** The closure of the original variant:
    [(_, callSites) => { const callSitesWithoutCurrent = callSites.slice(1);
       result = callSitesWithoutCurrent; return callSitesWithoutCurrent; }],
    [result] being the variable of the enclosing call. *)
Definition sliceHook (result : addr) (_ callSites : value) : JS value :=
  callSitesWithoutCurrent ← array_slice_1 callSites;
  _ ← write_cell result callSitesWithoutCurrent;
  mret callSitesWithoutCurrent.

Section Program.

(** What the other functions of the program do when called with two
    arguments.  The development holds for every such behaviour. *)
Variable foreign : nat → value → value → JS value.

Definition call (f : func) (x y : value) : JS value :=
  match f with
  | PrepareStackTraceHandler => prepareStackTraceHandler x y
  | SliceHook _ result => sliceHook result x y
  | ForeignFn n => foreign n x y
  end.

(** ** The V8 stack-trace API *)

(** [new Error()] evaluated by the innermost frame of [stack]: the error
    object records the descriptors of the innermost
    [Error.stackTraceLimit] frames, or the facility fails.  The limit is a
    number, ten when V8 starts; a program that replaces it by something
    that is not a number switches stack capture off altogether, which is
    the second case of [new_Error_stack] below. *)
Definition new_Error (stack : list Frame) : JS value := λ st,
  match captureFailure st with
  | Some e => (Throw e, st)
  | None =>
      (Return (VError "Error" (take (stackTraceLimit st) (site_of <$> stack))), st)
  end.

(** Reading [.stack] of a fresh error object.  When
    [Error.prepareStackTrace] holds a function, V8 calls it with the error
    and a new array of the captured descriptors, and the value it returns
    is the value of the property; otherwise the property is the default
    rendering. *)
Definition get_stack (e : value) : JS value :=
  match e with
  | VError _ captured =>
      hook ← gets prepareStackTrace;
      match hook with
      | VFunction f =>
          callSites ← alloc_array captured;
          call f e (VArray callSites)
      | _ => mret (VStackString captured)
      end
  | _ => mret VUndefined
  end.

(** ** The capture function *)

(** The frame of [callsites] while it evaluates [new Error()]
    ([index.js], line 20). *)
Definition callsites_frame : Frame :=
  {| frame_callee := CalleeCallsites;
     frame_file := Some "index.js";
     frame_line := Some 20;
     frame_column := Some 10 |}.

(** [index.js], lines 11-25.  [callers] are the frames active when
    [callsites] is called, innermost first: its direct caller is at the
    head. *)
Definition callsites (callers : list Frame) : JS value :=
  originalPrepareStackTrace ← gets prepareStackTrace;
  try_finally
    (_ ← set_prepareStackTrace (VFunction PrepareStackTraceHandler);
     e ← new_Error (callsites_frame :: callers);
     get_stack e)
    (set_prepareStackTrace originalPrepareStackTrace).

(** The frame of the original variant at its [new Error()]: line 10,
    column 9 of the function as the report quotes it
    ([index.original.js], imported by the comparison benchmark). *)
Definition callsites_original_frame : Frame :=
  {| frame_callee := CalleeCallsitesOriginal;
     frame_file := Some "index.original.js";
     frame_line := Some 10;
     frame_column := Some 9 |}.

(** The original variant, from the optimization report. *)
Definition callsites_original (callers : list Frame) : JS value :=
  _prepareStackTrace ← gets prepareStackTrace;
  try_finally
    (empty ← alloc_array [];
     result ← alloc_cell (VArray empty);
     hook ← new_closure result;
     _ ← set_prepareStackTrace (VFunction hook);
     e ← new_Error (callsites_original_frame :: callers);
     _ ← get_stack e;
     read_cell result)
    (set_prepareStackTrace _prepareStackTrace).

(** The sequence of descriptors a returned value denotes in a state. *)
Definition snapshot (st : runtime) (v : value) : option (list CallSite) :=
  match v with
  | VArray a => arrays st !! a
  | _ => None
  end.

(** [n] calls in sequence from the same call site. *)
Fixpoint repeat_callsites (n : nat) (callers : list Frame) : JS (list value) :=
  match n with
  | 0 => mret []
  | S n' =>
      v ← callsites callers;
      vs ← repeat_callsites n' callers;
      mret (v :: vs)
  end.

End Program.

(** ** Call stacks of the benchmark *)

Definition user_frame (name file : string) (line column : nat) : Frame :=
  {| frame_callee := CalleeUser name;
     frame_file := Some file;
     frame_line := Some line;
     frame_column := Some column |}.

(** [benchmark.js], lines 113-129: [deepStack1] down to [deepStack10],
    which calls [callsites]; innermost first, followed by the frames that
    called [deepStack1]. *)
Definition deep_chain : list Frame :=
  [ user_frame "deepStack10" "benchmark.js" 114 9;
    user_frame "deepStack9" "benchmark.js" 116 32;
    user_frame "deepStack8" "benchmark.js" 117 32;
    user_frame "deepStack7" "benchmark.js" 118 32;
    user_frame "deepStack6" "benchmark.js" 119 32;
    user_frame "deepStack5" "benchmark.js" 120 32;
    user_frame "deepStack4" "benchmark.js" 121 32;
    user_frame "deepStack3" "benchmark.js" 122 32;
    user_frame "deepStack2" "benchmark.js" 123 32;
    user_frame "deepStack1" "benchmark.js" 124 32 ].

Definition deep_stack : list Frame :=
  deep_chain ++
  [ user_frame "" "benchmark.js" 127 16;
    user_frame "benchmark" "benchmark.js" 17 3;
    user_frame "" "benchmark.js" 126 17 ].

(** A freshly started V8: no hook installed, the default limit of ten
    frames, an empty heap. *)
Definition v8_initial : runtime :=
  {| prepareStackTrace := VUndefined;
     stackTraceLimit := 10;
     captureFailure := None;
     arrays := ∅;
     cells := ∅;
     nextFunction := 0;
     hookWrites := [] |}.

Definition no_foreign : nat → value → value → JS value :=
  λ _ _ _, mret VUndefined.

(** The sequence of descriptors a finished call handed back, if it
    returned an array object. *)
Definition snapshot_of (r : outcome value * runtime) : option (list CallSite) :=
  match r.1 with
  | Return v => snapshot r.2 v
  | Throw _ => None
  end.

(** Two snapshots of equal length that report the same file name, line
    number and column number at every index. *)
Definition same_locations (l l' : list CallSite) : Prop :=
  length l = length l' ∧
  ∀ i s s', l !! i = Some s → l' !! i = Some s' →
    getFileName s = getFileName s' ∧
    getLineNumber s = getLineNumber s' ∧
    getColumnNumber s = getColumnNumber s'.

(** [benchmark.js], lines 55-57: the function passed to [benchmark] calls
    [callsites] directly; below it the warm-up loop of [benchmark] and the
    module body. *)
Definition scenario1_caller : Frame := user_frame "" "benchmark.js" 56 16.

Definition scenario1_stack : list Frame :=
  [ scenario1_caller;
    user_frame "benchmark" "benchmark.js" 17 3;
    user_frame "" "benchmark.js" 55 17 ].

(** V8 after the program has assigned [limit] to [Error.stackTraceLimit]. *)
Definition v8_with_limit (limit : nat) : runtime :=
  {| prepareStackTrace := VUndefined;
     stackTraceLimit := limit;
     captureFailure := None;
     arrays := ∅;
     cells := ∅;
     nextFunction := 0;
     hookWrites := [] |}.

(** V8 with a hook of the program installed and a stack-capture facility
    that fails with a [RangeError]. *)
Definition stack_exhausted : value := VError "RangeError" [].

Definition v8_failing : runtime :=
  {| prepareStackTrace := VFunction (ForeignFn 7);
     stackTraceLimit := 10;
     captureFailure := Some stack_exhausted;
     arrays := ∅;
     cells := ∅;
     nextFunction := 0;
     hookWrites := [VFunction (ForeignFn 7)] |}.

(** A heap in which array object 3 holds [l]. *)
Definition v8_holding (l : list CallSite) : runtime :=
  {| prepareStackTrace := VUndefined;
     stackTraceLimit := 10;
     captureFailure := None;
     arrays := {[ 3 := l ]};
     cells := ∅;
     nextFunction := 0;
     hookWrites := [] |}.

(** ** Expected results *)

(** The descriptors V8 hands to the hook for a call of the capture
    function from [callers], and what is left of them once the first is
    removed. *)
Definition raw_sites (own : Frame) (callers : list Frame) (st : runtime) : list CallSite :=
  take (stackTraceLimit st) (site_of <$> own :: callers).

Definition caller_sites (callers : list Frame) (st : runtime) : list CallSite :=
  take (pred (stackTraceLimit st)) (site_of <$> callers).

(** The state [callsites] leaves when the capture facility works: the new
    array holds the callers' descriptors, the hook slot holds what it held
    before, and the history shows the two assignments. *)
Definition after_callsites (callers : list Frame) (st : runtime) : runtime :=
  with_prepareStackTrace (prepareStackTrace st)
    (with_arrays (<[fresh (dom (arrays st)) := caller_sites callers st]> (arrays st))
       (with_prepareStackTrace (VFunction PrepareStackTraceHandler) st)).

(** The state it leaves when the facility fails: only the two assignments
    to the hook slot have happened. *)
Definition after_failed_callsites (st : runtime) : runtime :=
  with_prepareStackTrace (prepareStackTrace st)
    (with_prepareStackTrace (VFunction PrepareStackTraceHandler) st).

(** The array the original variant returns, and the heap it leaves. *)
Definition original_snapshot_addr (callers : list Frame) (st : runtime) : nat :=
  let a0 := fresh (dom (arrays st)) in
  let h0 := <[a0 := []]> (arrays st) in
  let a1 := fresh (dom h0) in
  fresh (dom (<[a1 := raw_sites callsites_original_frame callers st]> h0)).

Definition original_heap (callers : list Frame) (st : runtime) : gmap nat (list CallSite) :=
  let a0 := fresh (dom (arrays st)) in
  let h0 := <[a0 := []]> (arrays st) in
  let a1 := fresh (dom h0) in
  let h1 := <[a1 := raw_sites callsites_original_frame callers st]> h0 in
  <[fresh (dom h1) := caller_sites callers st]> h1.

(** The descriptors of the frames of scenario 1. *)
Definition three_sites : list CallSite := site_of <$> scenario1_stack.

(** ** The callers in the benchmark *)

(** The exception of a method call on a value that has no such method. *)
Definition not_a_call_site : value := VError "TypeError" [].

(** [v[i]] where a call-site descriptor is expected: the element of an
    array object, [None] for a value that is no descriptor ([undefined]
    when the index is out of range or the receiver has no such property);
    reading a property of [undefined] raises. *)
Definition array_get (v : value) (i : nat) : JS (option CallSite) := λ st,
  match v with
  | VUndefined => (Throw not_a_call_site, st)
  | VArray a =>
      match arrays st !! a with
      | Some l => (Return (l !! i), st)
      | None => (Throw not_an_array, st)
      end
  | _ => (Return None, st)
  end.

(** [site.getFileName()] and the like: the accessor of a descriptor, a
    [TypeError] on anything else. *)
Definition call_accessor {A} (accessor : CallSite → A) (site : option CallSite) : JS A :=
  λ st,
  match site with
  | Some s => (Return (accessor s), st)
  | None => (Throw not_a_call_site, st)
  end.

Section Benchmark.

Variable foreign : nat → value → value → JS value.

(** [benchmark.js], lines 74-80: the function of scenario 3, called from
    [callers].  [module] is the file name V8 reports for the frames of the
    benchmark module, which depends on where the module was loaded from.
    The result is the three constants the function binds (the function
    itself returns [undefined]). *)
Definition scenario3 (module : string) (callers : list Frame)
    : JS (option string * option nat * option nat) :=
  sites ← callsites foreign (user_frame "" module 75 16 :: callers);
  site ← array_get sites 0;
  fileName ← call_accessor getFileName site;
  lineNumber ← call_accessor getLineNumber site;
  columnNumber ← call_accessor getColumnNumber site;
  mret (fileName, lineNumber, columnNumber).

(** [benchmark.js], lines 113-124. *)
Definition deepStack10 (callers : list Frame) : JS value :=
  callsites foreign (user_frame "deepStack10" "benchmark.js" 114 9 :: callers).
Definition deepStack9 (callers : list Frame) : JS value :=
  deepStack10 (user_frame "deepStack9" "benchmark.js" 116 32 :: callers).
Definition deepStack8 (callers : list Frame) : JS value :=
  deepStack9 (user_frame "deepStack8" "benchmark.js" 117 32 :: callers).
Definition deepStack7 (callers : list Frame) : JS value :=
  deepStack8 (user_frame "deepStack7" "benchmark.js" 118 32 :: callers).
Definition deepStack6 (callers : list Frame) : JS value :=
  deepStack7 (user_frame "deepStack6" "benchmark.js" 119 32 :: callers).
Definition deepStack5 (callers : list Frame) : JS value :=
  deepStack6 (user_frame "deepStack5" "benchmark.js" 120 32 :: callers).
Definition deepStack4 (callers : list Frame) : JS value :=
  deepStack5 (user_frame "deepStack4" "benchmark.js" 121 32 :: callers).
Definition deepStack3 (callers : list Frame) : JS value :=
  deepStack4 (user_frame "deepStack3" "benchmark.js" 122 32 :: callers).
Definition deepStack2 (callers : list Frame) : JS value :=
  deepStack3 (user_frame "deepStack2" "benchmark.js" 123 32 :: callers).
Definition deepStack1 (callers : list Frame) : JS value :=
  deepStack2 (user_frame "deepStack1" "benchmark.js" 124 32 :: callers).

(** Two calls of a capture function in sequence, the second from
    [callers2]. *)
Definition twice (capture : list Frame → JS value) (callers1 callers2 : list Frame)
    : JS (value * value) :=
  v1 ← capture callers1;
  v2 ← capture callers2;
  mret (v1, v2).

End Benchmark.

(** The frames below the function of scenario 3: the warm-up loop of
    [benchmark] and the module body. *)
Definition scenario3_callers : list Frame :=
  [ user_frame "benchmark" "benchmark.js" 17 3;
    user_frame "" "benchmark.js" 74 17 ].

(** The frames below the function of scenario 6, which calls
    [deepStack1]. *)
Definition scenario6_callers : list Frame :=
  [ user_frame "benchmark" "benchmark.js" 17 3;
    user_frame "" "benchmark.js" 126 17 ].

Definition deepStack1_callers : list Frame :=
  user_frame "" "benchmark.js" 127 16 :: scenario6_callers.

(** ** A limit that is not a number *)

(** What [Error.stackTraceLimit] holds during a call: a number, the case
    [new_Error] and [get_stack] describe, or a value of another kind. *)
Inductive limit_kind :=
  | LimitIsNumber
  | LimitIsNotNumber.

Section AnyLimit.

Variable foreign : nat → value → value → JS value.

(** [new Error().stack] evaluated by the innermost frame of [stack].
    While the limit is not a number V8 captures no stack when the error is
    constructed and runs no hook when the property is read: its value is
    [undefined]. *)
Definition new_Error_stack (k : limit_kind) (stack : list Frame) : JS value :=
  match k with
  | LimitIsNumber =>
      e ← new_Error stack;
      get_stack foreign e
  | LimitIsNotNumber => λ st,
      match captureFailure st with
      | Some e => (Throw e, st)
      | None => (Return VUndefined, st)
      end
  end.

(** [index.js], lines 11-25, under either kind of limit. *)
Definition callsites_under (k : limit_kind) (callers : list Frame) : JS value :=
  originalPrepareStackTrace ← gets prepareStackTrace;
  try_finally
    (_ ← set_prepareStackTrace (VFunction PrepareStackTraceHandler);
     new_Error_stack k (callsites_frame :: callers))
    (set_prepareStackTrace originalPrepareStackTrace).

(** The original variant under either kind of limit. *)
Definition callsites_original_under (k : limit_kind) (callers : list Frame)
    : JS value :=
  _prepareStackTrace ← gets prepareStackTrace;
  try_finally
    (empty ← alloc_array [];
     result ← alloc_cell (VArray empty);
     hook ← new_closure result;
     _ ← set_prepareStackTrace (VFunction hook);
     _ ← new_Error_stack k (callsites_original_frame :: callers);
     read_cell result)
    (set_prepareStackTrace _prepareStackTrace).

End AnyLimit.

(** The module of the benchmark as loaded from the root directory. *)
Definition benchmark_module : string := "file:///benchmark.js".

(** * Properties *)

(** ** State bookkeeping *)

Lemma with_arrays_same st : with_arrays (arrays st) st = st.
Proof. by destruct st. Qed.

Lemma fresh_array_unused (h : gmap nat (list CallSite)) : h !! fresh (dom h) = None.
Proof. apply not_elem_of_dom, is_fresh. Qed.

Lemma tail_raw_sites own callers st :
  tail (raw_sites own callers st) = caller_sites callers st.
Proof.
  unfold raw_sites, caller_sites. by destruct (stackTraceLimit st).
Qed.

(** ** What the hooks do to the heap *)

Lemma handler_run e a l st :
  arrays st !! a = Some l →
  prepareStackTraceHandler e (VArray a) st =
    (Return (VArray a), with_arrays (<[a := tail l]> (arrays st)) st).
Proof.
  intros Hl.
  unfold prepareStackTraceHandler, array_shift, mbind, mret, JS_bind, JS_ret.
  by rewrite Hl.
Qed.

Lemma sliceHook_run result e a l st :
  arrays st !! a = Some l →
  sliceHook result e (VArray a) st =
    (Return (VArray (fresh (dom (arrays st)))),
     with_cells (<[result := VArray (fresh (dom (arrays st)))]> (cells st))
       (with_arrays (<[fresh (dom (arrays st)) := tail l]> (arrays st)) st)).
Proof.
  intros Hl.
  unfold sliceHook, array_slice_1, write_cell, alloc_array, modify,
    mbind, mret, JS_bind, JS_ret.
  rewrite Hl. by destruct l.
Qed.

Section Properties.

Variable foreign : nat → value → value → JS value.

Lemma new_Error_ok stack st :
  captureFailure st = None →
  new_Error stack st =
    (Return (VError "Error" (take (stackTraceLimit st) (site_of <$> stack))), st).
Proof. intros Hok. unfold new_Error. by rewrite Hok. Qed.

Lemma new_Error_fails stack st e :
  captureFailure st = Some e → new_Error stack st = (Throw e, st).
Proof. intros Hfail. unfold new_Error. by rewrite Hfail. Qed.

Lemma get_stack_handler name captured st :
  prepareStackTrace st = VFunction PrepareStackTraceHandler →
  get_stack foreign (VError name captured) st =
    (Return (VArray (fresh (dom (arrays st)))),
     with_arrays (<[fresh (dom (arrays st)) := tail captured]> (arrays st)) st).
Proof.
  intros Hhook.
  unfold get_stack, gets, alloc_array, mbind, JS_bind. rewrite Hhook.
  cbv beta iota. unfold call.
  erewrite handler_run by apply lookup_insert_eq.
  cbn [arrays with_arrays]. by rewrite insert_insert_eq.
Qed.

Lemma callsites_returns callers st :
  captureFailure st = None →
  callsites foreign callers st =
    (Return (VArray (fresh (dom (arrays st)))), after_callsites callers st).
Proof.
  intros Hok.
  unfold callsites, try_finally, set_prepareStackTrace, gets, modify, mbind, JS_bind.
  cbv beta iota.
  rewrite new_Error_ok by done.
  rewrite get_stack_handler by done.
  cbn [stackTraceLimit arrays with_prepareStackTrace].
  change (take (stackTraceLimit st) (site_of <$> callsites_frame :: callers))
    with (raw_sites callsites_frame callers st).
  by rewrite tail_raw_sites.
Qed.

Lemma callsites_throws callers st e :
  captureFailure st = Some e →
  callsites foreign callers st = (Throw e, after_failed_callsites st).
Proof.
  intros Hfail.
  unfold callsites, try_finally, new_Error, set_prepareStackTrace, gets, modify,
    mbind, mret, JS_bind, JS_ret, after_failed_callsites.
  cbn. by rewrite Hfail.
Qed.

Lemma get_stack_sliceHook id result name captured st :
  prepareStackTrace st = VFunction (SliceHook id result) →
  let a1 := fresh (dom (arrays st)) in
  let a2 := fresh (dom (<[a1 := captured]> (arrays st))) in
  get_stack foreign (VError name captured) st =
    (Return (VArray a2),
     with_cells (<[result := VArray a2]> (cells st))
       (with_arrays (<[a2 := tail captured]> (<[a1 := captured]> (arrays st))) st)).
Proof.
  intros Hhook a1 a2.
  unfold get_stack, gets, alloc_array, mbind, JS_bind. rewrite Hhook.
  cbv beta iota. unfold call.
  erewrite sliceHook_run by apply lookup_insert_eq.
  done.
Qed.

Lemma callsites_original_returns callers st :
  captureFailure st = None →
  ∃ st', callsites_original foreign callers st =
           (Return (VArray (original_snapshot_addr callers st)), st')
         ∧ arrays st' = original_heap callers st
         ∧ prepareStackTrace st' = prepareStackTrace st
         ∧ hookWrites st' =
             prepareStackTrace st
               :: VFunction (SliceHook (nextFunction st) (fresh (dom (cells st))))
               :: hookWrites st.
Proof.
  intros Hok.
  unfold callsites_original, try_finally, set_prepareStackTrace, alloc_array,
    alloc_cell, new_closure, read_cell, gets, modify, mbind, JS_bind.
  cbv beta iota zeta.
  rewrite new_Error_ok by done.
  erewrite get_stack_sliceHook by reflexivity.
  cbn [cells arrays with_cells with_arrays with_prepareStackTrace with_nextFunction
       stackTraceLimit prepareStackTrace hookWrites nextFunction].
  rewrite lookup_insert_eq. cbn [default].
  eexists. split; [reflexivity|].
  cbn [cells arrays with_cells with_arrays with_prepareStackTrace with_nextFunction
       stackTraceLimit prepareStackTrace hookWrites nextFunction].
  unfold original_heap.
  change (take (stackTraceLimit st) (site_of <$> callsites_original_frame :: callers))
    with (raw_sites callsites_original_frame callers st).
  by rewrite tail_raw_sites.
Qed.

Lemma callsites_original_throws callers st e :
  captureFailure st = Some e →
  ∃ st', callsites_original foreign callers st = (Throw e, st')
         ∧ prepareStackTrace st' = prepareStackTrace st.
Proof.
  intros Hfail.
  unfold callsites_original, try_finally, set_prepareStackTrace, alloc_array,
    alloc_cell, new_closure, read_cell, gets, modify, mbind, JS_bind.
  cbv beta iota zeta.
  rewrite (new_Error_fails _ _ e) by done.
  eexists. split; reflexivity.
Qed.


(** ** The hook *)

(** C3: for every error value and every array of call-site descriptors
    given to the installed hook, the hook removes exactly the first
    element of that array in place and returns the same, shortened array;
    every remaining descriptor is the one the runtime supplied at the next
    index, and no other array object changes. *)
Theorem handler_removes_first_in_place e a l st :
  arrays st !! a = Some l →
  ∃ st', prepareStackTraceHandler e (VArray a) st = (Return (VArray a), st')
       ∧ st' = with_arrays (<[a := tail l]> (arrays st)) st
       ∧ arrays st' !! a = Some (tail l)
       ∧ (∀ x l', l = x :: l' → arrays st' !! a = Some l')
       ∧ (∀ i, tail l !! i = l !! S i)
       ∧ (∀ b, b ≠ a → arrays st' !! b = arrays st !! b).
Proof.
  intros Hl. eexists. split; [by apply handler_run|].
  split; [done|]. cbn [arrays with_arrays].
  split; [apply lookup_insert_eq|].
  split; [intros x l' ->; apply lookup_insert_eq|].
  split; [intros i; by destruct l|].
  intros b Hb. by apply lookup_insert_ne.
Qed.

(** C10: the result of the installed hook does not depend on its first
    argument: for any two error values and any second argument, the two
    calls return the same value and leave the same state. *)
Theorem handler_ignores_error e1 e2 callSites st :
  prepareStackTraceHandler e1 callSites st = prepareStackTraceHandler e2 callSites st
  ∧ call foreign PrepareStackTraceHandler e1 callSites st
    = call foreign PrepareStackTraceHandler e2 callSites st.
Proof. split; reflexivity. Qed.

(** ** The hook slot *)

Lemma callsites_history callers st :
  hookWrites (callsites foreign callers st).2 =
    prepareStackTrace st :: VFunction PrepareStackTraceHandler :: hookWrites st.
Proof.
  destruct (captureFailure st) as [e|] eqn:Hf.
  - by rewrite (callsites_throws _ _ e).
  - by rewrite callsites_returns.
Qed.

Lemma callsites_restores_hook_aux callers st :
  prepareStackTrace (callsites foreign callers st).2 = prepareStackTrace st.
Proof.
  destruct (captureFailure st) as [e|] eqn:Hf.
  - by rewrite (callsites_throws _ _ e).
  - by rewrite callsites_returns.
Qed.

(** C2: on every exit path of [callsites], normal return or exception
    raised while the stack is materialized, [Error.prepareStackTrace]
    holds afterwards the very value it held before the call, [undefined]
    (no hook installed) included. *)
Theorem callsites_restores_hook callers st :
  prepareStackTrace (callsites foreign callers st).2 = prepareStackTrace st.
Proof. apply callsites_restores_hook_aux. Qed.

(** C7: the hook [callsites] installs is one pre-allocated function: in
    any two invocations, the value assigned to [Error.prepareStackTrace]
    before the capture is the same function object
    [prepareStackTraceHandler], followed by the restoring assignment, and
    no function object is allocated. *)
Theorem callsites_installs_same_handler callers1 callers2 st1 st2 :
  hookWrites (callsites foreign callers1 st1).2 =
    prepareStackTrace st1 :: VFunction PrepareStackTraceHandler :: hookWrites st1
  ∧ hookWrites (callsites foreign callers2 st2).2 =
    prepareStackTrace st2 :: VFunction PrepareStackTraceHandler :: hookWrites st2
  ∧ nextFunction (callsites foreign callers1 st1).2 = nextFunction st1
  ∧ nextFunction (callsites foreign callers2 st2).2 = nextFunction st2.
Proof.
  split; [apply callsites_history|]. split; [apply callsites_history|].
  split.
  - destruct (captureFailure st1) as [e|] eqn:Hf.
    + by rewrite (callsites_throws _ _ e).
    + by rewrite callsites_returns.
  - destruct (captureFailure st2) as [e|] eqn:Hf.
    + by rewrite (callsites_throws _ _ e).
    + by rewrite callsites_returns.
Qed.

(** The original variant, by contrast, installs a closure allocated by
    the call itself. *)
Lemma callsites_original_installs_new_closure callers st :
  captureFailure st = None →
  hookWrites (callsites_original foreign callers st).2 =
    prepareStackTrace st
      :: VFunction (SliceHook (nextFunction st) (fresh (dom (cells st))))
      :: hookWrites st.
Proof.
  intros Hok.
  destruct (callsites_original_returns callers st Hok) as (st' & -> & _ & _ & Hw).
  exact Hw.
Qed.

(** ** Failure of the capture facility *)

(** C8: when materializing the stack raises, [callsites] raises the same
    exception value, and nothing but the two assignments to the hook slot
    has happened: the slot, the limit and the heap are as before.  It has
    no failure of its own: when the facility works, it returns. *)
Theorem callsites_propagates_failure callers st :
  match captureFailure st with
  | Some e =>
      callsites foreign callers st = (Throw e, after_failed_callsites st)
      ∧ prepareStackTrace (after_failed_callsites st) = prepareStackTrace st
      ∧ stackTraceLimit (after_failed_callsites st) = stackTraceLimit st
      ∧ arrays (after_failed_callsites st) = arrays st
      ∧ cells (after_failed_callsites st) = cells st
      ∧ nextFunction (after_failed_callsites st) = nextFunction st
  | None => ∃ v, (callsites foreign callers st).1 = Return v
  end.
Proof.
  destruct (captureFailure st) as [e|] eqn:Hf.
  - split; [by apply callsites_throws|done].
  - eexists. by rewrite callsites_returns.
Qed.

(** ** The returned snapshot *)

Lemma callsites_snapshot callers st :
  captureFailure st = None →
  snapshot_of (callsites foreign callers st) = Some (caller_sites callers st).
Proof.
  intros Hok. rewrite callsites_returns by done.
  unfold snapshot_of, snapshot, after_callsites. cbn.
  apply lookup_insert_eq.
Qed.

Lemma caller_sites_not_own callers st :
  Forall (λ f, frame_callee f ≠ CalleeCallsites) callers →
  Forall (λ s, getFunction s ≠ CalleeCallsites) (caller_sites callers st).
Proof.
  intros Hcallers. unfold caller_sites.
  eapply Forall_forall. intros s Hs.
  apply subseteq_take in Hs.
  apply list_elem_of_fmap in Hs as (f & -> & Hf).
  rewrite Forall_forall in Hcallers. by apply Hcallers.
Qed.

(** C1, as the code has it: called directly from a function [F] whose
    frame heads the callers, with a working capture facility, [callsites]
    returns a snapshot every element of which is the descriptor of the
    caller's frame at the same index, none that of the frame of
    [callsites] above them (callers being frames of other functions, no
    descriptor names [callsites]); and when [Error.stackTraceLimit] is at
    least 2, so that the capture holds the frame of [callsites] and one
    more, the element at index 0 is the descriptor of [F]'s frame. *)
Theorem callsites_first_is_direct_caller F rest st :
  captureFailure st = None →
  ∃ l, snapshot_of (callsites foreign (F :: rest) st) = Some l
     ∧ (∀ i s, l !! i = Some s → ∃ f, (F :: rest) !! i = Some f ∧ s = site_of f)
     ∧ (Forall (λ f, frame_callee f ≠ CalleeCallsites) (F :: rest) →
        Forall (λ s, getFunction s ≠ CalleeCallsites) l
        ∧ site_of callsites_frame ∉ l)
     ∧ (2 ≤ stackTraceLimit st → l !! 0 = Some (site_of F)).
Proof.
  intros Hok. exists (caller_sites (F :: rest) st).
  split; [by apply callsites_snapshot|]. split; [|split].
  - intros i s Hs. unfold caller_sites in Hs.
    apply lookup_take_Some in Hs as [Hs _].
    rewrite list_lookup_fmap in Hs.
    destruct ((F :: rest) !! i) as [f|]; [|done].
    exists f. split; [done|]. by injection Hs.
  - intros Hcallers.
    pose proof (caller_sites_not_own (F :: rest) st Hcallers) as Hown.
    split; [done|].
    intros Hin. rewrite Forall_forall in Hown. by apply (Hown _ Hin).
  - intros Hlimit. unfold caller_sites.
    destruct (stackTraceLimit st) as [|[|n]]; [lia|lia|done].
Qed.

(** C4, as the code has it: reached through a chain of [D] nested calls
    ([chain], innermost first, above the frames [outer]) with [D] smaller
    than [Error.stackTraceLimit], [callsites] returns a snapshot of length
    at least [D] whose first [D] elements are the descriptors of the
    chain's frames in the same, innermost-first order. *)
Theorem callsites_nesting_depth chain outer st :
  captureFailure st = None →
  length chain < stackTraceLimit st →
  ∃ l, snapshot_of (callsites foreign (chain ++ outer) st) = Some l
     ∧ length chain ≤ length l
     ∧ take (length chain) l = site_of <$> chain
     ∧ (∀ i f, chain !! i = Some f → l !! i = Some (site_of f)).
Proof.
  intros Hok Hdepth. exists (caller_sites (chain ++ outer) st).
  split; [by apply callsites_snapshot|].
  assert (Hprefix : take (length chain) (caller_sites (chain ++ outer) st)
                    = site_of <$> chain).
  { unfold caller_sites. rewrite take_take, fmap_app.
    replace (length chain `min` pred (stackTraceLimit st)) with (length chain) by lia.
    apply take_app_length'. by rewrite length_fmap. }
  split; [|split; [done|]].
  - unfold caller_sites. rewrite length_take, length_fmap, length_app. lia.
  - intros i f Hf.
    rewrite <- (lookup_take_lt _ (length chain)) by (by eapply lookup_lt_Some).
    rewrite Hprefix, list_lookup_fmap, Hf. done.
Qed.

(** C9: the installed hook does not fail on an empty array: the removal
    changes nothing and the hook returns the same, still empty array; so
    when the runtime captures no frame at all, [callsites] returns an
    empty snapshot and does not raise. *)
Theorem handler_total_on_empty e a st callers st' :
  arrays st !! a = Some [] →
  captureFailure st' = None →
  stackTraceLimit st' = 0 →
  prepareStackTraceHandler e (VArray a) st = (Return (VArray a), st)
  ∧ raw_sites callsites_frame callers st' = []
  ∧ snapshot_of (callsites foreign callers st') = Some [].
Proof.
  intros Hempty Hok Hlimit. split; [|split].
  - rewrite (handler_run e a []) by done. cbn [tail].
    rewrite insert_id by done. by rewrite with_arrays_same.
  - unfold raw_sites. by rewrite Hlimit.
  - rewrite callsites_snapshot by done. unfold caller_sites. by rewrite Hlimit.
Qed.

(** ** The two variants *)



(** ** Repeated capture *)

Lemma same_locations_refl l : same_locations l l.
Proof.
  split; [done|]. intros i s s' Hs Hs'. by simplify_eq.
Qed.

(** A call that returns keeps every array object that existed before, and
    leaves the limit and the state of the capture facility alone. *)
Lemma after_callsites_keeps callers st b l :
  arrays st !! b = Some l → arrays (after_callsites callers st) !! b = Some l.
Proof.
  intros Hb. unfold after_callsites. cbn.
  rewrite lookup_insert_ne; [done|].
  intros <-. by rewrite fresh_array_unused in Hb.
Qed.

Lemma repeat_callsites_returns n callers st :
  captureFailure st = None →
  ∃ vs st', repeat_callsites foreign n callers st = (Return vs, st')
          ∧ length vs = n
          ∧ captureFailure st' = None
          ∧ stackTraceLimit st' = stackTraceLimit st
          ∧ (∀ b l, arrays st !! b = Some l → arrays st' !! b = Some l)
          ∧ Forall (λ v, snapshot st' v = Some (caller_sites callers st)) vs.
Proof.
  revert st. induction n as [|n IH]; intros st Hok.
  - exists [], st. by repeat split.
  - destruct (IH (after_callsites callers st)) as (vs & st' & Hrun & Hlen & Hok' & Hlim & Hkeep & Hall);
      [done|].
    exists (VArray (fresh (dom (arrays st))) :: vs), st'.
    split; [|split; [|split; [|split; [|split]]]].
    + cbn [repeat_callsites]. unfold mbind, JS_bind.
      rewrite callsites_returns by done. by rewrite Hrun.
    + cbn. by rewrite Hlen.
    + done.
    + by rewrite Hlim.
    + intros b l Hb. by apply Hkeep, after_callsites_keeps.
    + constructor; [|done].
      cbn [snapshot]. apply Hkeep. unfold after_callsites. cbn.
      apply lookup_insert_eq.
Qed.

(** C6: [n] calls of [callsites] in sequence from the same call site
    return [n] snapshots, and any two of them have the same length and
    report the same file name, line number and column number at every
    index. *)
Theorem callsites_deterministic n callers st :
  captureFailure st = None →
  ∃ vs st', repeat_callsites foreign n callers st = (Return vs, st')
          ∧ length vs = n
          ∧ ∀ v w, v ∈ vs → w ∈ vs →
              ∃ l l', snapshot st' v = Some l ∧ snapshot st' w = Some l'
                    ∧ same_locations l l'.
Proof.
  intros Hok.
  destruct (repeat_callsites_returns n callers st Hok)
    as (vs & st' & Hrun & Hlen & _ & _ & _ & Hall).
  exists vs, st'. split; [done|]. split; [done|].
  intros v w Hv Hw. rewrite Forall_forall in Hall.
  exists (caller_sites callers st), (caller_sites callers st).
  split; [by apply Hall|]. split; [by apply Hall|].
  apply same_locations_refl.
Qed.

End Properties.

(** * Concrete runs *)

(** Both exit paths occur: the first run returns, the second raises, and
    the hook of the program is back in the slot. *)
Example callsites_normal_exit :
  (callsites no_foreign scenario1_stack v8_initial).1 = Return (VArray 0)
  ∧ snapshot_of (callsites no_foreign scenario1_stack v8_initial)
    = Some (site_of <$> scenario1_stack).
Proof. by vm_compute. Qed.

Example callsites_failing_exit :
  (callsites no_foreign scenario1_stack v8_failing).1 = Throw stack_exhausted
  ∧ prepareStackTrace (callsites no_foreign scenario1_stack v8_failing).2
    = VFunction (ForeignFn 7).
Proof. by vm_compute. Qed.

(** With [Error.stackTraceLimit] set to 1, V8 captures the frame of
    [callsites] alone, the hook removes it, and the snapshot returned to
    the direct caller is empty: it has no element at index 0. *)
Lemma callsites_limit_one_is_empty :
  captureFailure (v8_with_limit 1) = None
  ∧ snapshot_of (callsites no_foreign scenario1_stack (v8_with_limit 1)) = Some []
  ∧ ¬ (∃ l, snapshot_of (callsites no_foreign scenario1_stack (v8_with_limit 1)) = Some l
          ∧ l !! 0 = Some (site_of scenario1_caller)).
Proof.
  split; [reflexivity|]. split; [by vm_compute|].
  intros (l & Hl & H0).
  vm_compute in Hl. injection Hl as <-. discriminate H0.
Qed.

(** The deep-stack scenario of the benchmark under V8's default limit of
    ten frames: the capture holds [callsites] and nine callers, so the
    snapshot has nine elements, fewer than the ten nested calls, and
    nothing describes [deepStack1]. *)
Lemma callsites_deep_stack_is_cut :
  captureFailure v8_initial = None
  ∧ length deep_chain = 10
  ∧ snapshot_of (callsites no_foreign deep_stack v8_initial)
    = Some (site_of <$> take 9 deep_chain)
  ∧ ¬ (∃ l, snapshot_of (callsites no_foreign deep_stack v8_initial) = Some l
          ∧ length deep_chain ≤ length l).
Proof.
  split; [reflexivity|]. split; [reflexivity|]. split; [by vm_compute|].
  intros (l & Hl & Hlen).
  vm_compute in Hl. injection Hl as <-. vm_compute in Hlen. lia.
Qed.

Lemma callsites_first_is_direct_caller_witness :
  captureFailure v8_initial = None
  ∧ ∃ l, snapshot_of (callsites no_foreign scenario1_stack v8_initial) = Some l
       ∧ Forall (λ s, getFunction s ≠ CalleeCallsites) l
       ∧ l !! 0 = Some (site_of scenario1_caller).
Proof.
  assert (Hcallers : Forall (λ f, frame_callee f ≠ CalleeCallsites) scenario1_stack)
    by (repeat constructor; discriminate).
  assert (Hlimit : 2 ≤ stackTraceLimit v8_initial) by (vm_compute; lia).
  split; [reflexivity|].
  destruct (callsites_first_is_direct_caller no_foreign scenario1_caller
              (tail scenario1_stack) v8_initial eq_refl)
    as (l & Hl & _ & Hown & Hfirst).
  exists l. split; [exact Hl|].
  split; [exact (proj1 (Hown Hcallers)) | exact (Hfirst Hlimit)].
Defined.

Lemma handler_removes_first_in_place_witness :
  arrays (v8_holding three_sites) !! 3 = Some three_sites
  ∧ ∃ st', prepareStackTraceHandler VUndefined (VArray 3) (v8_holding three_sites)
             = (Return (VArray 3), st')
         ∧ arrays st' !! 3 = Some (tail three_sites).
Proof.
  split; [reflexivity|].
  destruct (handler_removes_first_in_place VUndefined 3 three_sites
              (v8_holding three_sites) eq_refl)
    as (st' & Hrun & _ & Hheap & _).
  exists st'. split; [exact Hrun | exact Hheap].
Defined.

Lemma callsites_nesting_depth_witness :
  captureFailure (v8_with_limit 20) = None
  ∧ length deep_chain < stackTraceLimit (v8_with_limit 20)
  ∧ ∃ l, snapshot_of (callsites no_foreign deep_stack (v8_with_limit 20)) = Some l
       ∧ length deep_chain ≤ length l
       ∧ take (length deep_chain) l = site_of <$> deep_chain.
Proof.
  assert (Hdepth : length deep_chain < stackTraceLimit (v8_with_limit 20))
    by (vm_compute; lia).
  split; [reflexivity|]. split; [exact Hdepth|].
  destruct (callsites_nesting_depth no_foreign deep_chain
              (drop (length deep_chain) deep_stack) (v8_with_limit 20) eq_refl Hdepth)
    as (l & Hl & Hlen & Hprefix & _).
  exists l. split; [exact Hl|]. split; [exact Hlen | exact Hprefix].
Defined.

Lemma handler_total_on_empty_witness :
  arrays (v8_holding []) !! 3 = Some []
  ∧ captureFailure (v8_with_limit 0) = None
  ∧ stackTraceLimit (v8_with_limit 0) = 0
  ∧ prepareStackTraceHandler VUndefined (VArray 3) (v8_holding [])
    = (Return (VArray 3), v8_holding [])
  ∧ snapshot_of (callsites no_foreign scenario1_stack (v8_with_limit 0)) = Some [].
Proof.
  split; [reflexivity|]. split; [reflexivity|]. split; [reflexivity|].
  destruct (handler_total_on_empty no_foreign VUndefined 3 (v8_holding [])
              scenario1_stack (v8_with_limit 0) eq_refl eq_refl eq_refl)
    as (Hhook & _ & Hsnap).
  split; [exact Hhook | exact Hsnap].
Defined.

Lemma callsites_deterministic_witness :
  captureFailure v8_initial = None
  ∧ ∃ vs st', repeat_callsites no_foreign 3 scenario1_stack v8_initial = (Return vs, st')
            ∧ length vs = 3
            ∧ ∀ v w, v ∈ vs → w ∈ vs →
                ∃ l l', snapshot st' v = Some l ∧ snapshot st' w = Some l'
                      ∧ same_locations l l'.
Proof.
  split; [reflexivity|].
  exact (callsites_deterministic no_foreign 3 scenario1_stack v8_initial eq_refl).
Defined.

(** * Further properties of the hooks *)

(** The hook works on the array object itself: run a second time on the
    same array it removes a second element, so that two runs leave the
    elements from index 2 on. *)
Theorem handler_twice_removes_two e1 e2 a l st :
  arrays st !! a = Some l →
  (v ← prepareStackTraceHandler e1 (VArray a);
   prepareStackTraceHandler e2 v) st
  = (Return (VArray a), with_arrays (<[a := drop 2 l]> (arrays st)) st).
Proof.
  intros Hl. unfold mbind, JS_bind.
  rewrite (handler_run e1 a l) by done.
  rewrite (handler_run e2 a (tail l)) by apply lookup_insert_eq.
  cbn [arrays with_arrays]. rewrite insert_insert_eq.
  replace (tail (tail l)) with (drop 2 l) by (by destruct l as [|x [|y l]]).
  reflexivity.
Qed.

Lemma handler_twice_removes_two_witness :
  arrays (v8_holding three_sites) !! 3 = Some three_sites
  ∧ (v ← prepareStackTraceHandler VUndefined (VArray 3);
     prepareStackTraceHandler VUndefined v) (v8_holding three_sites)
    = (Return (VArray 3),
       with_arrays (<[3 := drop 2 three_sites]> (arrays (v8_holding three_sites)))
         (v8_holding three_sites)).
Proof.
  split; [reflexivity|].
  exact (handler_twice_removes_two VUndefined VUndefined 3 three_sites
           (v8_holding three_sites) eq_refl).
Defined.

(** The hook of the original variant leaves the array it is given as it
    is: it returns a new array object, one that did not exist before,
    holding the elements from index 1 on, stores it in the variable
    [result], and changes no other array. *)
Theorem sliceHook_leaves_argument result e a l st :
  arrays st !! a = Some l →
  ∃ b st', sliceHook result e (VArray a) st = (Return (VArray b), st')
         ∧ b ≠ a
         ∧ arrays st !! b = None
         ∧ arrays st' !! a = Some l
         ∧ arrays st' !! b = Some (tail l)
         ∧ cells st' !! result = Some (VArray b)
         ∧ (∀ c, c ≠ b → arrays st' !! c = arrays st !! c).
Proof.
  intros Hl. eexists _, _. split; [by apply sliceHook_run|].
  pose proof (fresh_array_unused (arrays st)) as Hfresh.
  assert (Hne : fresh (dom (arrays st)) ≠ a) by (intros Heq; congruence).
  cbn [arrays cells with_arrays with_cells].
  split; [done|]. split; [done|].
  split; [by rewrite lookup_insert_ne|].
  split; [apply lookup_insert_eq|].
  split; [apply lookup_insert_eq|].
  intros c Hc. by rewrite lookup_insert_ne.
Qed.

Lemma sliceHook_leaves_argument_witness :
  arrays (v8_holding three_sites) !! 3 = Some three_sites
  ∧ ∃ b st', sliceHook 0 VUndefined (VArray 3) (v8_holding three_sites)
               = (Return (VArray b), st')
           ∧ b ≠ 3
           ∧ arrays st' !! 3 = Some three_sites
           ∧ arrays st' !! b = Some (tail three_sites).
Proof.
  split; [reflexivity|].
  destruct (sliceHook_leaves_argument 0 VUndefined 3 three_sites
              (v8_holding three_sites) eq_refl)
    as (b & st' & Hrun & Hne & _ & Ha & Hb & _).
  exists b, st'. split; [exact Hrun|]. split; [exact Hne|].
  split; [exact Ha | exact Hb].
Defined.

(** * Further properties of the capture functions *)

Section CaptureProperties.

Variable foreign : nat → value → value → JS value.

(** With a working capture facility, [callsites] returns exactly the
    descriptors of the innermost callers, in order, as many as the limit
    leaves room for beside its own frame: the smaller of
    [Error.stackTraceLimit - 1] and the number of callers. *)
Theorem callsites_exact_snapshot callers st :
  captureFailure st = None →
  ∃ l, snapshot_of (callsites foreign callers st) = Some l
     ∧ l = site_of <$> take (pred (stackTraceLimit st)) callers
     ∧ length l = pred (stackTraceLimit st) `min` length callers.
Proof.
  intros Hok. exists (caller_sites callers st).
  split; [by apply callsites_snapshot|]. unfold caller_sites.
  split; [by rewrite fmap_take|].
  by rewrite length_take, length_fmap.
Qed.

(** A call that returns hands back an array object that did not exist
    before the call; it is the only array object the call adds, and every
    other array object is as it was. *)
Theorem callsites_returns_fresh_array callers st :
  captureFailure st = None →
  ∃ a st', callsites foreign callers st = (Return (VArray a), st')
         ∧ arrays st !! a = None
         ∧ dom (arrays st') = {[a]} ∪ dom (arrays st)
         ∧ (∀ b, b ≠ a → arrays st' !! b = arrays st !! b).
Proof.
  intros Hok. eexists _, _. split; [by apply callsites_returns|].
  unfold after_callsites. cbn [arrays with_arrays with_prepareStackTrace].
  split; [apply fresh_array_unused|].
  split; [apply dom_insert_L|].
  intros b Hb. by rewrite lookup_insert_ne.
Qed.

(** On either exit path [callsites] leaves [Error.stackTraceLimit], the
    state of the capture facility, the captured variables and the function
    allocation counter as they were. *)
Theorem callsites_touches_nothing_else callers st :
  stackTraceLimit (callsites foreign callers st).2 = stackTraceLimit st
  ∧ captureFailure (callsites foreign callers st).2 = captureFailure st
  ∧ cells (callsites foreign callers st).2 = cells st
  ∧ nextFunction (callsites foreign callers st).2 = nextFunction st.
Proof.
  destruct (captureFailure st) as [e|] eqn:Hf.
  - rewrite (callsites_throws _ _ _ e) by done. by rewrite <- Hf.
  - rewrite callsites_returns by done. by rewrite <- Hf.
Qed.

Lemma callsites_original_effects callers st :
  captureFailure st = None →
  ∃ st', callsites_original foreign callers st =
           (Return (VArray (original_snapshot_addr callers st)), st')
         ∧ arrays st' = original_heap callers st
         ∧ prepareStackTrace st' = prepareStackTrace st
         ∧ hookWrites st' =
             prepareStackTrace st
               :: VFunction (SliceHook (nextFunction st) (fresh (dom (cells st))))
               :: hookWrites st
         ∧ nextFunction st' = S (nextFunction st)
         ∧ captureFailure st' = None
         ∧ stackTraceLimit st' = stackTraceLimit st.
Proof.
  intros Hok.
  unfold callsites_original, try_finally, set_prepareStackTrace, alloc_array,
    alloc_cell, new_closure, read_cell, gets, modify, mbind, JS_bind.
  cbv beta iota zeta.
  rewrite new_Error_ok by done.
  erewrite get_stack_sliceHook by reflexivity.
  cbn [cells arrays with_cells with_arrays with_prepareStackTrace with_nextFunction
       stackTraceLimit prepareStackTrace hookWrites nextFunction captureFailure].
  rewrite lookup_insert_eq. cbn [default].
  eexists. split; [reflexivity|].
  cbn [cells arrays with_cells with_arrays with_prepareStackTrace with_nextFunction
       stackTraceLimit prepareStackTrace hookWrites nextFunction captureFailure].
  unfold original_heap.
  change (take (stackTraceLimit st) (site_of <$> callsites_original_frame :: callers))
    with (raw_sites callsites_original_frame callers st).
  by rewrite tail_raw_sites.
Qed.

(** Neither variant runs the hook the program had installed: whatever
    the functions of the program do when called, the outcome and the
    final state of a capture are the same. *)
Theorem capture_never_calls_installed_hook (foreign' : nat → value → value → JS value)
    callers st :
  callsites foreign callers st = callsites foreign' callers st
  ∧ callsites_original foreign callers st = callsites_original foreign' callers st.
Proof.
  split.
  - destruct (captureFailure st) as [e|] eqn:Hf.
    + by rewrite !(callsites_throws _ _ _ e).
    + by rewrite !callsites_returns.
  - unfold callsites_original, try_finally, set_prepareStackTrace, alloc_array,
      alloc_cell, new_closure, read_cell, gets, modify, mbind, JS_bind.
    cbv beta iota zeta.
    destruct (captureFailure st) as [e|] eqn:Hf.
    + by rewrite !(new_Error_fails _ _ e).
    + rewrite !new_Error_ok by done.
      erewrite (get_stack_sliceHook foreign) by reflexivity.
      erewrite (get_stack_sliceHook foreign') by reflexivity.
      reflexivity.
Qed.

(** The original variant, too, leaves in the hook slot what it held
    before, on either exit path. *)
Theorem callsites_original_restores_hook callers st :
  prepareStackTrace (callsites_original foreign callers st).2 = prepareStackTrace st.
Proof.
  destruct (captureFailure st) as [e|] eqn:Hf.
  - by destruct (callsites_original_throws foreign callers st e Hf) as (st' & -> & Hhook).
  - by destruct (callsites_original_returns foreign callers st Hf)
      as (st' & -> & _ & Hhook & _).
Qed.

(** Two calls of the original variant in sequence install two different
    function objects, each allocated by its call. *)
Theorem callsites_original_allocates_hook_per_call callers1 callers2 st :
  captureFailure st = None →
  ∃ r st' c1 c2,
    twice (callsites_original foreign) callers1 callers2 st = (Return r, st')
    ∧ hookWrites st' =
        prepareStackTrace st
          :: VFunction (SliceHook (S (nextFunction st)) c2)
          :: prepareStackTrace st
          :: VFunction (SliceHook (nextFunction st) c1)
          :: hookWrites st
    ∧ SliceHook (S (nextFunction st)) c2 ≠ SliceHook (nextFunction st) c1
    ∧ nextFunction st' = S (S (nextFunction st)).
Proof.
  intros Hok.
  destruct (callsites_original_effects callers1 st Hok)
    as (st1 & Hrun1 & _ & Hhook1 & Hw1 & Hn1 & Hok1 & _).
  destruct (callsites_original_effects callers2 st1 Hok1)
    as (st2 & Hrun2 & _ & Hhook2 & Hw2 & Hn2 & _ & _).
  eexists _, st2, _, _. split; [|split; [|split]].
  - unfold twice, mbind, JS_bind. rewrite Hrun1, Hrun2. reflexivity.
  - rewrite Hw2, Hw1, Hhook1, Hn1. reflexivity.
  - intros Heq. injection Heq as Hid _. lia.
  - by rewrite Hn2, Hn1.
Qed.

(** What a successful call leaves on the heap: the optimized variant adds
    one array object and allocates no function; the original adds three
    array objects (the initial value of [result], the array V8 passes to
    the hook, and its slice) and allocates one function. *)
Theorem variants_allocations callers st :
  captureFailure st = None →
  size (arrays (callsites foreign callers st).2) = S (size (arrays st))
  ∧ nextFunction (callsites foreign callers st).2 = nextFunction st
  ∧ size (arrays (callsites_original foreign callers st).2) = S (S (S (size (arrays st))))
  ∧ nextFunction (callsites_original foreign callers st).2 = S (nextFunction st).
Proof.
  intros Hok. split; [|split; [|split]].
  - rewrite callsites_returns by done. unfold after_callsites. cbn.
    apply map_size_insert_None, fresh_array_unused.
  - by rewrite callsites_returns.
  - destruct (callsites_original_effects callers st Hok) as (st' & -> & Hheap & _).
    cbn [snd]. rewrite Hheap. unfold original_heap. cbv zeta.
    by rewrite !map_size_insert_None by apply fresh_array_unused.
  - by destruct (callsites_original_effects callers st Hok)
      as (st' & -> & _ & _ & _ & Hn & _).
Qed.

(** When the capture facility fails, the optimized variant has allocated
    nothing, whereas the original has by then allocated the initial array
    of [result] and its closure; both raise the same exception. *)
Theorem variants_allocations_on_failure callers st e :
  captureFailure st = Some e →
  (callsites foreign callers st).1 = Throw e
  ∧ arrays (callsites foreign callers st).2 = arrays st
  ∧ nextFunction (callsites foreign callers st).2 = nextFunction st
  ∧ (callsites_original foreign callers st).1 = Throw e
  ∧ arrays (callsites_original foreign callers st).2
    = <[fresh (dom (arrays st)) := []]> (arrays st)
  ∧ size (arrays (callsites_original foreign callers st).2) = S (size (arrays st))
  ∧ nextFunction (callsites_original foreign callers st).2 = S (nextFunction st).
Proof.
  intros Hfail. rewrite (callsites_throws _ _ _ e) by done.
  split; [done|]. split; [done|]. split; [done|].
  unfold callsites_original, try_finally, set_prepareStackTrace, alloc_array,
    alloc_cell, new_closure, read_cell, gets, modify, mbind, JS_bind.
  cbv beta iota zeta.
  rewrite (new_Error_fails _ _ e) by done.
  cbn. split; [done|]. split; [done|]. split; [|done].
  apply map_size_insert_None, fresh_array_unused.
Qed.

End CaptureProperties.

(** * Properties of the benchmark's callers *)

Section BenchmarkProperties.

Variable foreign : nat → value → value → JS value.

Lemma repeat_callsites_addresses n callers st :
  captureFailure st = None →
  ∃ addrs st', repeat_callsites foreign n callers st = (Return (VArray <$> addrs), st')
             ∧ length addrs = n
             ∧ NoDup addrs
             ∧ (∀ a, a ∈ addrs → arrays st !! a = None)
             ∧ (∀ b l, arrays st !! b = Some l → arrays st' !! b = Some l)
             ∧ prepareStackTrace st' = prepareStackTrace st.
Proof.
  revert st. induction n as [|n IH]; intros st Hok.
  - exists [], st. repeat split; try done; [constructor | by intros a Ha%elem_of_nil].
  - destruct (IH (after_callsites callers st))
      as (addrs & st' & Hrun & Hlen & Hnodup & Hnew & Hkeep & Hhook); [done|].
    pose proof (fresh_array_unused (arrays st)) as Hfresh.
    assert (Hhead : arrays (after_callsites callers st) !! fresh (dom (arrays st))
                    = Some (caller_sites callers st))
      by (unfold after_callsites; cbn; apply lookup_insert_eq).
    exists (fresh (dom (arrays st)) :: addrs), st'.
    split; [|split; [|split; [|split; [|split]]]].
    + cbn [repeat_callsites]. unfold mbind, JS_bind.
      rewrite callsites_returns by done. by rewrite Hrun.
    + cbn. by rewrite Hlen.
    + constructor; [|done]. intros Hin. apply Hnew in Hin. congruence.
    + intros a [->|Hin]%elem_of_cons; [done|].
      apply Hnew in Hin.
      destruct (arrays st !! a) as [l|] eqn:Ha; [|done].
      apply (after_callsites_keeps callers) in Ha. congruence.
    + intros b l Hb. by apply Hkeep, after_callsites_keeps.
    + by rewrite Hhook.
Qed.

(** [n] calls in sequence, as in the memory measurement of the benchmark,
    return [n] different array objects, none of which existed before, and
    leave in the hook slot what it held before the first call. *)
Theorem repeated_captures_are_distinct_arrays n callers st :
  captureFailure st = None →
  ∃ addrs st', repeat_callsites foreign n callers st = (Return (VArray <$> addrs), st')
             ∧ length addrs = n
             ∧ NoDup addrs
             ∧ (∀ a, a ∈ addrs → arrays st !! a = None)
             ∧ prepareStackTrace st' = prepareStackTrace st.
Proof.
  intros Hok.
  destruct (repeat_callsites_addresses n callers st Hok)
    as (addrs & st' & Hrun & Hlen & Hnodup & Hnew & _ & Hhook).
  by exists addrs, st'.
Qed.

(** In a sequence of calls the first failure ends the sequence: the
    exception escapes after one attempt, whose only traces are the two
    assignments to the hook slot. *)
Theorem repeated_captures_stop_at_failure n callers st e :
  captureFailure st = Some e →
  repeat_callsites foreign (S n) callers st = (Throw e, after_failed_callsites st).
Proof.
  intros Hfail. cbn [repeat_callsites]. unfold mbind, JS_bind.
  by rewrite (callsites_throws _ _ _ e).
Qed.

(** Reading index 0 of what [callsites] returned to a direct caller [F]:
    the descriptor of [F] when the limit is at least 2, [undefined]
    otherwise. *)
Lemma callsites_then_first F rest st :
  captureFailure st = None →
  (sites ← callsites foreign (F :: rest); array_get sites 0) st
  = (Return (if decide (2 ≤ stackTraceLimit st) then Some (site_of F) else None),
     after_callsites (F :: rest) st).
Proof.
  intros Hok. unfold mbind, JS_bind. rewrite callsites_returns by done.
  unfold array_get, after_callsites at 1. cbn [arrays with_arrays with_prepareStackTrace].
  rewrite lookup_insert_eq. unfold caller_sites.
  destruct (stackTraceLimit st) as [|[|n]]; cbn [pred];
    case_decide; try lia; done.
Qed.

(** The function of scenario 3 reads the location of its own call of
    [callsites], line 75 and column 16 of the file V8 reports for the
    benchmark module, when [Error.stackTraceLimit] is at least 2; with a
    limit of 0 or 1 the snapshot is empty and the method call on
    [sites[0]] raises a [TypeError].  Either way the hook slot holds what
    it held before. *)
Theorem scenario3_reads_own_call_site module callers st :
  captureFailure st = None →
  (2 ≤ stackTraceLimit st →
     (scenario3 foreign module callers st).1 = Return (Some module, Some 75, Some 16))
  ∧ (stackTraceLimit st ≤ 1 →
     (scenario3 foreign module callers st).1 = Throw not_a_call_site)
  ∧ prepareStackTrace (scenario3 foreign module callers st).2 = prepareStackTrace st.
Proof.
  intros Hok.
  pose proof (callsites_then_first (user_frame "" module 75 16) callers st Hok)
    as Hfirst.
  unfold scenario3. unfold mbind, JS_bind in *.
  destruct (callsites foreign _ st) as [[sites|e] st1]; [|done].
  rewrite Hfirst. case_decide; split; try split; intros; try lia; done.
Qed.

Lemma deepStack1_unfold callers :
  deepStack1 foreign callers = callsites foreign (deep_chain ++ callers).
Proof. reflexivity. Qed.

(** Under a limit of at most 11 frames (V8 starts with 10) what
    [deepStack1] returns describes frames of the ten nested functions
    only, innermost first, and does not depend on what called
    [deepStack1]: the capture never reaches the caller. *)
Theorem deepStack1_sees_only_the_chain callers st :
  captureFailure st = None →
  stackTraceLimit st ≤ 11 →
  snapshot_of (deepStack1 foreign callers st)
  = Some (take (pred (stackTraceLimit st)) (site_of <$> deep_chain)).
Proof.
  intros Hok Hlimit. rewrite deepStack1_unfold, callsites_snapshot by done.
  unfold caller_sites. rewrite fmap_app, take_app_le; [done|].
  rewrite length_fmap. cbn. lia.
Qed.

End BenchmarkProperties.

(** * Further concrete runs *)

Lemma callsites_exact_snapshot_witness :
  captureFailure v8_initial = None
  ∧ ∃ l, snapshot_of (callsites no_foreign deep_stack v8_initial) = Some l
       ∧ l = site_of <$> take 9 deep_stack
       ∧ length l = 9.
Proof.
  split; [reflexivity|].
  exact (callsites_exact_snapshot no_foreign deep_stack v8_initial eq_refl).
Defined.

Lemma callsites_returns_fresh_array_witness :
  captureFailure (v8_holding three_sites) = None
  ∧ ∃ a st', callsites no_foreign scenario1_stack (v8_holding three_sites)
               = (Return (VArray a), st')
           ∧ arrays (v8_holding three_sites) !! a = None
           ∧ arrays st' !! 3 = Some three_sites.
Proof.
  split; [reflexivity|].
  destruct (callsites_returns_fresh_array no_foreign scenario1_stack
              (v8_holding three_sites) eq_refl)
    as (a & st' & Hrun & Hfresh & _ & Hkeep).
  exists a, st'. split; [exact Hrun|]. split; [exact Hfresh|].
  rewrite Hkeep; [reflexivity|].
  intros Heq. rewrite <- Heq in Hfresh. vm_compute in Hfresh. discriminate Hfresh.
Defined.

Lemma callsites_original_allocates_hook_per_call_witness :
  captureFailure v8_initial = None
  ∧ ∃ r st' c1 c2,
      twice (callsites_original no_foreign) scenario1_stack scenario1_stack v8_initial
        = (Return r, st')
      ∧ hookWrites st' =
          [ VUndefined; VFunction (SliceHook 1 c2);
            VUndefined; VFunction (SliceHook 0 c1) ].
Proof.
  split; [reflexivity|].
  destruct (callsites_original_allocates_hook_per_call no_foreign
              scenario1_stack scenario1_stack v8_initial eq_refl)
    as (r & st' & c1 & c2 & Hrun & Hw & _).
  exists r, st', c1, c2. split; [exact Hrun | exact Hw].
Defined.

Lemma variants_allocations_witness :
  captureFailure v8_initial = None
  ∧ size (arrays (callsites no_foreign scenario1_stack v8_initial).2) = 1
  ∧ size (arrays (callsites_original no_foreign scenario1_stack v8_initial).2) = 3.
Proof.
  split; [reflexivity|].
  destruct (variants_allocations no_foreign scenario1_stack v8_initial eq_refl)
    as (Hopt & _ & Horig & _).
  split; [exact Hopt | exact Horig].
Defined.

Lemma repeated_captures_are_distinct_arrays_witness :
  captureFailure v8_initial = None
  ∧ ∃ addrs st',
      repeat_callsites no_foreign 3 scenario1_stack v8_initial
        = (Return (VArray <$> addrs), st')
      ∧ length addrs = 3
      ∧ NoDup addrs.
Proof.
  split; [reflexivity|].
  destruct (repeated_captures_are_distinct_arrays no_foreign 3 scenario1_stack
              v8_initial eq_refl)
    as (addrs & st' & Hrun & Hlen & Hnodup & _).
  exists addrs, st'. split; [exact Hrun|]. split; [exact Hlen | exact Hnodup].
Defined.

Lemma scenario3_reads_own_call_site_witness :
  captureFailure v8_initial = None
  ∧ 2 ≤ stackTraceLimit v8_initial
  ∧ (scenario3 no_foreign benchmark_module scenario3_callers v8_initial).1
    = Return (Some benchmark_module, Some 75, Some 16)
  ∧ captureFailure (v8_with_limit 1) = None
  ∧ stackTraceLimit (v8_with_limit 1) ≤ 1
  ∧ (scenario3 no_foreign benchmark_module scenario3_callers (v8_with_limit 1)).1
    = Throw not_a_call_site.
Proof.
  assert (Hbig : 2 ≤ stackTraceLimit v8_initial) by (vm_compute; lia).
  assert (Hsmall : stackTraceLimit (v8_with_limit 1) ≤ 1) by (vm_compute; lia).
  split; [reflexivity|]. split; [exact Hbig|].
  split; [exact (proj1 (scenario3_reads_own_call_site no_foreign benchmark_module
                          scenario3_callers v8_initial eq_refl) Hbig)|].
  split; [reflexivity|]. split; [exact Hsmall|].
  exact (proj1 (proj2 (scenario3_reads_own_call_site no_foreign benchmark_module
                         scenario3_callers (v8_with_limit 1) eq_refl)) Hsmall).
Defined.

Lemma deepStack1_sees_only_the_chain_witness :
  captureFailure v8_initial = None
  ∧ stackTraceLimit v8_initial ≤ 11
  ∧ snapshot_of (deepStack1 no_foreign deepStack1_callers v8_initial)
    = Some (take 9 (site_of <$> deep_chain)).
Proof.
  assert (Hlimit : stackTraceLimit v8_initial ≤ 11) by (vm_compute; lia).
  split; [reflexivity|]. split; [exact Hlimit|].
  exact (deepStack1_sees_only_the_chain no_foreign deepStack1_callers v8_initial
           eq_refl Hlimit).
Defined.

Lemma variants_allocations_on_failure_witness :
  captureFailure v8_failing = Some stack_exhausted
  ∧ arrays (callsites no_foreign scenario1_stack v8_failing).2 = arrays v8_failing
  ∧ size (arrays (callsites_original no_foreign scenario1_stack v8_failing).2) = 1.
Proof.
  split; [reflexivity|].
  destruct (variants_allocations_on_failure no_foreign scenario1_stack v8_failing
              stack_exhausted eq_refl)
    as (_ & Hopt & _ & _ & _ & Horig & _).
  split; [exact Hopt | exact Horig].
Defined.

Lemma repeated_captures_stop_at_failure_witness :
  captureFailure v8_failing = Some stack_exhausted
  ∧ repeat_callsites no_foreign 1000 scenario1_stack v8_failing
    = (Throw stack_exhausted, after_failed_callsites v8_failing).
Proof.
  split; [reflexivity|].
  exact (repeated_captures_stop_at_failure no_foreign 999 scenario1_stack v8_failing
           stack_exhausted eq_refl).
Defined.

(** * The two variants and the kind of limit *)

Section LimitKinds.

Variable foreign : nat → value → value → JS value.




(** While [Error.stackTraceLimit] is not a number and the facility does
    not fail, V8 never runs the hook, and the two variants part:
    [callsites] returns [undefined], the value of [.stack], and adds
    nothing to the heap; the original returns the initial value of
    [result], a new empty array.  Both leave in the hook slot what it held
    before. *)
Theorem variants_under_other_limit callers st :
  captureFailure st = None →
  (callsites_under foreign LimitIsNotNumber callers st).1 = Return VUndefined
  ∧ snapshot_of (callsites_under foreign LimitIsNotNumber callers st) = None
  ∧ arrays (callsites_under foreign LimitIsNotNumber callers st).2 = arrays st
  ∧ (callsites_original_under foreign LimitIsNotNumber callers st).1
    = Return (VArray (fresh (dom (arrays st))))
  ∧ snapshot_of (callsites_original_under foreign LimitIsNotNumber callers st) = Some []
  ∧ prepareStackTrace (callsites_under foreign LimitIsNotNumber callers st).2
    = prepareStackTrace st
  ∧ prepareStackTrace (callsites_original_under foreign LimitIsNotNumber callers st).2
    = prepareStackTrace st.
Proof.
  intros Hok.
  unfold callsites_under, callsites_original_under, try_finally, new_Error_stack,
    set_prepareStackTrace, alloc_array, alloc_cell, new_closure, read_cell,
    gets, modify, mbind, JS_bind, snapshot_of.
  cbv beta iota zeta.
  cbn [captureFailure with_prepareStackTrace with_arrays with_cells with_nextFunction].
  rewrite Hok.
  cbn [fst snd cells arrays prepareStackTrace with_prepareStackTrace with_arrays
       with_cells with_nextFunction snapshot].
  rewrite lookup_insert_eq. unfold default.
  cbn [from_option id snapshot arrays with_prepareStackTrace with_nextFunction
       with_cells with_arrays].
  by rewrite lookup_insert_eq.
Qed.

End LimitKinds.


Lemma variants_under_other_limit_witness :
  captureFailure (v8_holding three_sites) = None
  ∧ (callsites_under no_foreign LimitIsNotNumber scenario1_stack (v8_holding three_sites)).1
    = Return VUndefined
  ∧ snapshot_of (callsites_original_under no_foreign LimitIsNotNumber scenario1_stack
                   (v8_holding three_sites))
    = Some [].
Proof.
  split; [reflexivity|].
  destruct (variants_under_other_limit no_foreign scenario1_stack (v8_holding three_sites) eq_refl)
    as (Hopt & _ & _ & _ & Horig & _).
  split; [exact Hopt | exact Horig].
Defined.
